(** * adk-go, [server/adkrest/controllers/handlers.go]

    A shallow embedding of the response-handling shim of the ADK REST
    server: the [trackingResponseWriter] decorator, [EncodeJSONResponse]
    and [NewErrorHandler], together with the properties that the
    specification states about them.

    Go mutates the response writer in place through a pointer; here every
    method takes the writer and returns the writer after the call, plus
    the lines it printed with [log.Printf]. *)

From Stdlib Require Import ZArith Ascii String.
From stdpp Require Import base strings list gmap fin_maps.

Local Open Scope string_scope.
Local Open Scope list_scope.
Local Open Scope Z_scope.

(** ** Errors *)

(** Modelled from the spec: the declaration of [statusError] is not part of
    handlers.go.  The spec describes it as an error variant exposing an
    integer HTTP status code and a human-readable message, next to generic
    errors that carry a message only. *)
Inductive error : Type :=
| errorString (msg : string)
| statusError (msg : string) (code : Z).

(** [err.Error()] *)
Definition Error (e : error) : string :=
  match e with
  | errorString msg => msg
  | statusError msg _ => msg
  end.

(** [http.StatusInternalServerError], [http.StatusNotImplemented],
    [http.StatusOK] *)
Definition StatusInternalServerError : Z := 500.
Definition StatusNotImplemented : Z := 501.
Definition StatusOK : Z := 200.

(** ** Log lines

    One constructor per [log.Printf] call site of handlers.go. *)
Inductive logline : Type :=
| LogSkippingDuplicateWriteHeader (statusCode : Z)
| LogFailedToEncodeAfterHeaders (err : error)
| LogErrorAfterResponseStarted (err : error).

(** ** The response writer at the bottom

    Any [http.ResponseWriter] that is not a [trackingResponseWriter] is seen
    through the calls it has received, oldest first.  [Header()] hands out
    the writer's own header map, so [Header().Set] and [Header().Del] are
    calls on the writer as well.  A [Write] is kept with the result the
    writer gave for it. *)
Inductive call : Type :=
| CallHeaderSet (key value : string)
| CallHeaderDel (key : string)
| CallWriteHeader (statusCode : Z)
| CallWrite (data : string) (n : Z) (err : option error).

Definition is_WriteHeader (c : call) : bool :=
  match c with CallWriteHeader _ => true | _ => false end.

Definition is_Write (c : call) : bool :=
  match c with CallWrite _ _ _ => true | _ => false end.

Definition is_header_edit (c : call) : bool :=
  match c with CallHeaderSet _ _ | CallHeaderDel _ => true | _ => false end.

(** How many status codes a run of calls carries. *)
Definition count_WriteHeader (cs : list call) : nat :=
  length (List.filter is_WriteHeader cs).

(** ** The interface [http.ResponseWriter]

    A type implements the interface by giving the three methods; [Header]
    appears through the two edits that handlers.go and [http.Error] make on
    the map it returns.  A method returns the writer after the call, and
    [WriteHeader] also the lines it logged.  [trackedHeaderWritten] is the
    type assertion of [w] to a pointer to [trackingResponseWriter] and the read of
    [headerWritten]: [None] when the dynamic type is another one. *)
Class ResponseWriterOps (W : Type) : Type := {
  HeaderSet : string -> string -> W -> W;
  HeaderDel : string -> W -> W;
  WriteHeader : Z -> W -> W * list logline;
  Write : string -> W -> W * (Z * option error);
  trackedHeaderWritten : W -> option bool
}.

(** [trackingResponseWriter] embeds an [http.ResponseWriter] and adds the
    flag. *)
Record trackingResponseWriter (W : Type) : Type := mkTracking {
  ResponseWriter : W;
  headerWritten : bool
}.
Arguments mkTracking {W} _ _.
Arguments ResponseWriter {W} _.
Arguments headerWritten {W} _.

(** [&trackingResponseWriter{ResponseWriter: w}]: the flag takes Go's zero
    value. *)
Definition newTracking {W : Type} (w : W) : trackingResponseWriter W :=
  mkTracking w false.

Section TrackingResponseWriter.

Context {W : Type} `{ResponseWriterOps W}.

(** [func (w *trackingResponseWriter) WriteHeader(statusCode int)] *)
Definition tracking_WriteHeader (statusCode : Z) (w : trackingResponseWriter W)
  : trackingResponseWriter W * list logline :=
  if headerWritten w then
    (w, [LogSkippingDuplicateWriteHeader statusCode])
  else
    let '(inner, lg) := WriteHeader statusCode (ResponseWriter w) in
    (mkTracking inner true, lg).

(** [func (w *trackingResponseWriter) Write(data []byte) (int, error)] *)
Definition tracking_Write (data : string) (w : trackingResponseWriter W)
  : trackingResponseWriter W * (Z * option error) :=
  let '(inner, res) := Write data (ResponseWriter w) in
  (mkTracking inner true, res).

(** [func (w *trackingResponseWriter) Unwrap() http.ResponseWriter] *)
Definition Unwrap (w : trackingResponseWriter W) : W :=
  ResponseWriter w.

(** [Header] is promoted from the embedded writer: the edits go to the
    wrapped writer's map and leave the flag alone. *)
Definition tracking_HeaderSet (key value : string) (w : trackingResponseWriter W)
  : trackingResponseWriter W :=
  mkTracking (HeaderSet key value (ResponseWriter w)) (headerWritten w).

Definition tracking_HeaderDel (key : string) (w : trackingResponseWriter W)
  : trackingResponseWriter W :=
  mkTracking (HeaderDel key (ResponseWriter w)) (headerWritten w).

#[export] Instance tracking_ops : ResponseWriterOps (trackingResponseWriter W) := {
  HeaderSet := tracking_HeaderSet;
  HeaderDel := tracking_HeaderDel;
  WriteHeader := tracking_WriteHeader;
  Write := tracking_Write;
  trackedHeaderWritten := fun w => Some (headerWritten w)
}.

End TrackingResponseWriter.

(** The three methods as data, to speak of sequences of calls on one
    tracking writer.  [Unwrap] hands out the wrapped writer and leaves the
    receiver as it is. *)
Inductive method : Type :=
| CallsWriteHeader (statusCode : Z)
| CallsWrite (data : string)
| CallsUnwrap.

Definition emits (m : method) : bool :=
  match m with
  | CallsWriteHeader _ | CallsWrite _ => true
  | CallsUnwrap => false
  end.

Definition invoke {W : Type} `{ResponseWriterOps W}
  (w : trackingResponseWriter W) (m : method) : trackingResponseWriter W :=
  match m with
  | CallsWriteHeader statusCode => fst (tracking_WriteHeader statusCode w)
  | CallsWrite data => fst (tracking_Write data w)
  | CallsUnwrap => w
  end.

(** ** Library functions used by handlers.go *)

Definition newline : string := String (ascii_of_nat 10) EmptyString.

Section Library.

Context {W : Type} `{ResponseWriterOps W}.

(** [http.Error(w, error, code)] of net/http: drops Content-Length, sets the
    plain-text content type and the nosniff option, writes the status and
    prints the message with [fmt.Fprintln], whose result is dropped. *)
Definition http_Error (msg : string) (code : Z) (w : W) : W * list logline :=
  let w1 := HeaderDel "Content-Length" w in
  let w2 := HeaderSet "Content-Type" "text/plain; charset=utf-8" w1 in
  let w3 := HeaderSet "X-Content-Type-Options" "nosniff" w2 in
  let '(w4, lg) := WriteHeader code w3 in
  let '(w5, _) := Write (msg +:+ newline) w4 in
  (w5, lg).

Variable Any : Type.

(** [json.Marshal] *)
Variable Marshal : Any -> string + error.

(** [json.NewEncoder(w).Encode(v)] of encoding/json: marshals [v] first and
    returns the error when that fails, with nothing written; otherwise
    writes the text and a newline in one [Write] and returns the error of
    that write. *)
Definition Encode (v : Any) (w : W) : W * option error :=
  match Marshal v with
  | inr err => (w, Some err)
  | inl text =>
      let '(w', (_, err)) := Write (text +:+ newline) w in
      (w', err)
  end.

(** ** [EncodeJSONResponse]

    [func EncodeJSONResponse(i any, status int, w http.ResponseWriter)];
    [i] is [None] for Go's [nil]. *)
Definition EncodeJSONResponse (i : option Any) (status : Z) (w : W)
  : W * list logline :=
  let w1 := HeaderSet "Content-Type" "application/json; charset=UTF-8" w in
  let '(w2, lg) := WriteHeader status w1 in
  match i with
  | None => (w2, lg)
  | Some v =>
      let '(w3, err) := Encode v w2 in
      match err with
      | None => (w3, lg)
      | Some e =>
          match trackedHeaderWritten w3 with
          | Some true => (w3, lg ++ [LogFailedToEncodeAfterHeaders e])
          | _ =>
              let '(w4, lg') := http_Error (Error e) StatusInternalServerError w3 in
              (w4, lg ++ lg')
          end
      end
  end.

(** [func Unimplemented(rw http.ResponseWriter, req *http.Request)] *)
Definition Unimplemented (rw : W) : W * list logline :=
  WriteHeader StatusNotImplemented rw.

End Library.

Arguments Encode {W _ Any} Marshal v w.
Arguments EncodeJSONResponse {W _ Any} Marshal i status w.

(** ** Fallible handlers

    [type errorHandler func(http.ResponseWriter, *http.Request) error].  The
    function body is arbitrary Go code; what matters here is the sequence of
    calls it makes on the writer it is given and the error it returns.  A
    handler is the tree of those calls: the continuation of [DoWrite] gets
    the result of the write, that of [DoUnwrap] the wrapped writer.
    [DoEncodeJSONResponse] is a call of [EncodeJSONResponse] on the writer
    the handler was given. *)
Inductive handler (U Any : Type) : Type :=
| Return (err : option error)
| DoHeaderSet (key value : string) (next : handler U Any)
| DoHeaderDel (key : string) (next : handler U Any)
| DoWriteHeader (statusCode : Z) (next : handler U Any)
| DoWrite (data : string) (next : Z * option error -> handler U Any)
| DoUnwrap (next : U -> handler U Any)
| DoEncodeJSONResponse (i : option Any) (status : Z) (next : handler U Any).
Arguments Return {U Any} _.
Arguments DoHeaderSet {U Any} _ _ _.
Arguments DoHeaderDel {U Any} _ _.
Arguments DoWriteHeader {U Any} _ _.
Arguments DoWrite {U Any} _ _.
Arguments DoUnwrap {U Any} _.
Arguments DoEncodeJSONResponse {U Any} _ _ _.

Section ErrorHandler.

Context {U : Type} `{ResponseWriterOps U}.
Variable Any : Type.
Variable Marshal : Any -> string + error.
Variable Request : Type.

Definition errorHandler : Type := Request -> handler U Any.

(** The body of a handler, run on the tracking writer it was given: the
    writer afterwards, the lines logged on the way, the error returned. *)
Fixpoint run (h : handler U Any) (tw : trackingResponseWriter U)
  : trackingResponseWriter U * list logline * option error :=
  match h with
  | Return err => (tw, [], err)
  | DoHeaderSet key value next => run next (HeaderSet key value tw)
  | DoHeaderDel key next => run next (HeaderDel key tw)
  | DoWriteHeader statusCode next =>
      let '(tw1, lg1) := WriteHeader statusCode tw in
      let '(tw2, lg2, err) := run next tw1 in
      (tw2, lg1 ++ lg2, err)
  | DoWrite data next =>
      let '(tw1, res) := Write data tw in
      run (next res) tw1
  | DoUnwrap next => run (next (Unwrap tw)) tw
  | DoEncodeJSONResponse i status next =>
      let '(tw1, lg1) := EncodeJSONResponse Marshal i status tw in
      let '(tw2, lg2, err) := run next tw1 in
      (tw2, lg1 ++ lg2, err)
  end.

(** Whether the handler, run on [tw], calls [WriteHeader] or [Write] on it,
    itself or through [EncodeJSONResponse]. *)
Fixpoint writes (h : handler U Any) (tw : trackingResponseWriter U) : bool :=
  match h with
  | Return _ => false
  | DoHeaderSet key value next => writes next (HeaderSet key value tw)
  | DoHeaderDel key next => writes next (HeaderDel key tw)
  | DoWriteHeader _ _ => true
  | DoWrite _ _ => true
  | DoUnwrap next => writes (next (Unwrap tw)) tw
  | DoEncodeJSONResponse _ _ _ => true
  end.

(** Whether the handler, run on [tw], calls [Write] on it itself. *)
Fixpoint attempts_Write (h : handler U Any) (tw : trackingResponseWriter U) : bool :=
  match h with
  | Return _ => false
  | DoHeaderSet key value next => attempts_Write next (HeaderSet key value tw)
  | DoHeaderDel key next => attempts_Write next (HeaderDel key tw)
  | DoWriteHeader statusCode next =>
      attempts_Write next (fst (WriteHeader statusCode tw))
  | DoWrite _ _ => true
  | DoUnwrap next => attempts_Write (next (Unwrap tw)) tw
  | DoEncodeJSONResponse i status next =>
      attempts_Write next (fst (EncodeJSONResponse Marshal i status tw))
  end.

(** ** [NewErrorHandler]

    [func NewErrorHandler(fn errorHandler) http.HandlerFunc].  The handler
    it returns is run on the writer [w] and the request [r]; the result is
    [w] after the call and the lines logged.  The tracking writer is local to
    the call and gone afterwards. *)
Definition NewErrorHandler (fn : errorHandler) (w : U) (r : Request)
  : U * list logline :=
  let tw := newTracking w in
  let '(tw1, lg, err) := run (fn r) tw in
  match err with
  | None => (ResponseWriter tw1, lg)
  | Some e =>
      if headerWritten tw1 then
        (ResponseWriter tw1, lg ++ [LogErrorAfterResponseStarted e])
      else
        let '(tw2, lg') :=
          match e with
          | statusError msg code => http_Error msg code tw1
          | errorString msg => http_Error msg StatusInternalServerError tw1
          end in
        (ResponseWriter tw2, lg ++ lg')
  end.

End ErrorHandler.

Arguments errorHandler U Any Request : clear implicits.
Arguments run {U _ Any} Marshal h tw.
Arguments writes {U _ Any} h tw.
Arguments attempts_Write {U _ Any} Marshal h tw.
Arguments NewErrorHandler {U _ Any} Marshal {Request} fn w r.

(** ** A writer that is not a tracking writer

    It keeps the calls it receives.  [write_result] is what it answers to a
    [Write], from the calls received so far and the data: any deterministic
    writer is one choice of it. *)
Record recorder : Type := mkRecorder {
  received : list call;
  write_result : list call -> string -> Z * option error
}.

Definition recorder_receive (c : call) (w : recorder) : recorder :=
  mkRecorder (received w ++ [c]) (write_result w).

Definition recorder_Write (data : string) (w : recorder)
  : recorder * (Z * option error) :=
  let '(n, err) := write_result w (received w) data in
  (recorder_receive (CallWrite data n err) w, (n, err)).

#[export] Instance recorder_ops : ResponseWriterOps recorder := {
  HeaderSet := fun key value => recorder_receive (CallHeaderSet key value);
  HeaderDel := fun key => recorder_receive (CallHeaderDel key);
  WriteHeader := fun statusCode w =>
    (recorder_receive (CallWriteHeader statusCode) w, []);
  Write := recorder_Write;
  trackedHeaderWritten := fun _ => None
}.

(** A writer that takes every write whole. *)
Definition accepts_all (cs : list call) (data : string) : Z * option error :=
  (Z.of_nat (String.length data), None).

(** A writer whose every [Write] fails without taking a byte. *)
Definition rejects_all (cs : list call) (data : string) : Z * option error :=
  (0, Some (errorString "write: broken pipe")).

(** [tw'] comes from [tw] by calls that reached the wrapped recorder, and
    those calls carry a status only where the flag went from unset to set. *)
Definition forwards (tw tw' : trackingResponseWriter recorder) : Prop :=
  exists added : list call,
    ResponseWriter tw'
    = mkRecorder (received (ResponseWriter tw) ++ added)
                 (write_result (ResponseWriter tw))
    /\ (count_WriteHeader added + Nat.b2n (headerWritten tw)
        <= Nat.b2n (headerWritten tw'))%nat.

(** ** The response a client sees

    What net/http documents for [ResponseWriter]: the first [WriteHeader]
    fixes the status and the headers as they are at that moment; a [Write]
    before any [WriteHeader] fixes status 200 first; later [WriteHeader]
    calls and header edits change nothing; the body is what the writes
    took, in order.  Header names are kept as given. *)
Record response : Type := mkResponse {
  Code : Z;
  Header : gmap string (list string);
  Body : string
}.

Record wire : Type := mkWire {
  pending : gmap string (list string);
  sent : option (Z * gmap string (list string));
  body : string
}.

Definition wire_step (s : wire) (c : call) : wire :=
  match c with
  | CallHeaderSet key value => mkWire (<[key := [value]]> (pending s)) (sent s) (body s)
  | CallHeaderDel key => mkWire (delete key (pending s)) (sent s) (body s)
  | CallWriteHeader statusCode =>
      match sent s with
      | Some _ => s
      | None => mkWire (pending s) (Some (statusCode, pending s)) (body s)
      end
  | CallWrite data n _ =>
      let taken := String.substring 0 (Z.to_nat n) data in
      match sent s with
      | Some _ => mkWire (pending s) (sent s) (body s +:+ taken)
      | None => mkWire (pending s) (Some (StatusOK, pending s)) (body s +:+ taken)
      end
  end.

Definition response_of (cs : list call) : response :=
  let s := fold_left wire_step cs (mkWire ∅ None "") in
  match sent s with
  | Some (statusCode, h) => mkResponse statusCode h (body s)
  | None => mkResponse StatusOK (pending s) (body s)
  end.

(** [strings.Contains(s, sub)] as a proposition. *)
Definition contains (s sub : string) : Prop :=
  exists before after, s = before +:+ sub +:+ after.

(** Sample values for the encoder: Go's [true], and a channel, which
    encoding/json refuses. *)
Inductive sample : Type := sample_true | sample_chan.

Definition sample_Marshal (v : sample) : string + error :=
  match v with
  | sample_true => inl "true"
  | sample_chan => inr (errorString "json: unsupported type: chan int")
  end.

(** The data of the [Write] calls in a run of calls, in order. *)
Definition writes_of (cs : list call) : list string :=
  omap (fun c => match c with CallWrite data _ _ => Some data | _ => None end) cs.

(** The data of the [Write] calls in a sequence of method calls, in order. *)
Definition issued_writes (ms : list method) : list string :=
  omap (fun m => match m with CallsWrite data => Some data | _ => None end) ms.

(** Whether a run of calls carries a status or a body write. *)
Definition has_output (cs : list call) : bool :=
  existsb (fun c => is_WriteHeader c || is_Write c) cs.

(** [tw'] comes from [tw] by calls that reached the wrapped recorder, and
    the flag of [tw'] is set only if it was set on [tw] or one of those
    calls carried a status or a body write. *)
Definition responds (tw tw' : trackingResponseWriter recorder) : Prop :=
  exists added : list call,
    ResponseWriter tw'
    = mkRecorder (received (ResponseWriter tw) ++ added)
                 (write_result (ResponseWriter tw))
    /\ (headerWritten tw' = true ->
        headerWritten tw = true \/ has_output added = true).

(** The status codes of the [WriteHeader] calls in a run of calls, in
    order. *)
Definition statuses_of (cs : list call) : list Z :=
  omap (fun c => match c with CallWriteHeader statusCode => Some statusCode | _ => None end) cs.

(** The status of the first [WriteHeader] in a sequence of method calls, if
    no [Write] comes before it. *)
Fixpoint first_status (ms : list method) : option Z :=
  match ms with
  | [] => None
  | CallsWriteHeader statusCode :: _ => Some statusCode
  | CallsWrite _ :: _ => None
  | CallsUnwrap :: rest => first_status rest
  end.

(** * Properties *)

(** ** The tracking writer over any wrapped writer *)

Section TrackingProperties.

Context {U : Type} `{ResponseWriterOps U}.

Lemma tracking_WriteHeader_headerWritten (statusCode : Z) (tw : trackingResponseWriter U) :
  headerWritten (fst (tracking_WriteHeader statusCode tw)) = true.
Proof.
  unfold tracking_WriteHeader.
  destruct (headerWritten tw) eqn:E; simpl; [exact E|].
  destruct (WriteHeader statusCode (ResponseWriter tw)); reflexivity.
Qed.

Lemma tracking_Write_headerWritten (data : string) (tw : trackingResponseWriter U) :
  headerWritten (fst (tracking_Write data tw)) = true.
Proof.
  unfold tracking_Write.
  destruct (Write data (ResponseWriter tw)); reflexivity.
Qed.

Lemma invoke_headerWritten (tw : trackingResponseWriter U) (m : method) :
  headerWritten (invoke tw m) = headerWritten tw || emits m.
Proof.
  destruct m; simpl.
  - rewrite tracking_WriteHeader_headerWritten, orb_true_r. reflexivity.
  - rewrite tracking_Write_headerWritten, orb_true_r. reflexivity.
  - rewrite orb_false_r. reflexivity.
Qed.

Lemma invoke_all_headerWritten (ms : list method) (tw : trackingResponseWriter U) :
  headerWritten (fold_left invoke ms tw) = headerWritten tw || existsb emits ms.
Proof.
  revert tw. induction ms as [|m ms IH]; intros tw; simpl.
  - rewrite orb_false_r. reflexivity.
  - rewrite IH, invoke_headerWritten, orb_assoc. reflexivity.
Qed.

(** C4.  On a fresh tracking writer, [WriteHeader S1] passes exactly the call
    [WriteHeader S1] on to the wrapped writer and sets [headerWritten]; a
    following [WriteHeader S2] leaves the writer, the wrapped one included,
    as it is and only logs the skipped status. *)
Theorem WriteHeader_twice_forwards_first_only (w : U) (S1 S2 : Z) :
  tracking_WriteHeader S1 (newTracking w)
  = (mkTracking (fst (WriteHeader S1 w)) true, snd (WriteHeader S1 w))
  /\ tracking_WriteHeader S2 (fst (tracking_WriteHeader S1 (newTracking w)))
     = (mkTracking (fst (WriteHeader S1 w)) true,
        [LogSkippingDuplicateWriteHeader S2]).
Proof.
  unfold tracking_WriteHeader, newTracking; simpl.
  destruct (WriteHeader S1 w) as [inner lg]; simpl.
  split; reflexivity.
Qed.

(** C7.  [headerWritten] is false on the writer the wrapper creates; after
    any sequence of [WriteHeader], [Write] and [Unwrap] calls it is true
    exactly when the flag was true before or one of the calls was a
    [WriteHeader] or a [Write]: so it turns true with the first status or
    body call and no call turns it back. *)
Theorem headerWritten_monotone (w : U) (tw : trackingResponseWriter U)
    (ms more : list method) :
  headerWritten (newTracking w) = false
  /\ headerWritten (fold_left invoke ms (newTracking w)) = existsb emits ms
  /\ headerWritten (fold_left invoke (ms ++ more) tw)
     = headerWritten (fold_left invoke ms tw) || existsb emits more.
Proof.
  split; [reflexivity|]. split.
  - rewrite invoke_all_headerWritten. reflexivity.
  - rewrite fold_left_app, invoke_all_headerWritten. reflexivity.
Qed.

(** C8.  [Write] on a tracking writer sets [headerWritten] whatever the flag
    was, passes the data to the wrapped writer, and returns the byte count
    and the error the wrapped writer gave, unchanged. *)
Theorem Write_sets_flag_and_forwards (data : string) (tw : trackingResponseWriter U) :
  tracking_Write data tw
  = (mkTracking (fst (Write data (ResponseWriter tw))) true,
     snd (Write data (ResponseWriter tw))).
Proof.
  unfold tracking_Write.
  destruct (Write data (ResponseWriter tw)); reflexivity.
Qed.

End TrackingProperties.

(** ** Handlers run on a tracking writer *)

Section HandlerProperties.

Context {U : Type} `{ResponseWriterOps U}.
Variable Any : Type.
Variable Marshal : Any -> string + error.
Variable Request : Type.

Lemma Encode_headerWritten (v : Any) (tw : trackingResponseWriter U) :
  headerWritten tw = true ->
  headerWritten (fst (Encode Marshal v tw)) = true.
Proof.
  intros Hw. unfold Encode.
  destruct (Marshal v) as [text|err]; simpl; [|exact Hw].
  pose proof (tracking_Write_headerWritten (text +:+ newline) tw) as Hd.
  destruct (tracking_Write (text +:+ newline) tw) as [tw' [n err]].
  exact Hd.
Qed.

Lemma http_Error_headerWritten (msg : string) (code : Z) (tw : trackingResponseWriter U) :
  headerWritten (fst (http_Error msg code tw)) = true.
Proof.
  unfold http_Error; simpl.
  set (tw3 := tracking_HeaderSet _ _ _).
  pose proof (tracking_WriteHeader_headerWritten code tw3) as H4.
  destruct (tracking_WriteHeader code tw3) as [tw4 lg].
  pose proof (tracking_Write_headerWritten (msg +:+ newline) tw4) as H5.
  destruct (tracking_Write (msg +:+ newline) tw4) as [tw5 res].
  exact H5.
Qed.

(** After step 2 of [EncodeJSONResponse] the flag of a tracking writer is
    set. *)
Lemma EncodeJSONResponse_step2_headerWritten (status : Z) (tw : trackingResponseWriter U) :
  headerWritten
    (fst (WriteHeader status
            (HeaderSet "Content-Type" "application/json; charset=UTF-8" tw)))
  = true.
Proof. apply tracking_WriteHeader_headerWritten. Qed.

Lemma EncodeJSONResponse_headerWritten (i : option Any) (status : Z)
    (tw : trackingResponseWriter U) :
  headerWritten (fst (EncodeJSONResponse Marshal i status tw)) = true.
Proof.
  unfold EncodeJSONResponse.
  pose proof (EncodeJSONResponse_step2_headerWritten status tw) as H2.
  destruct (WriteHeader status _) as [tw2 lg]; simpl in H2.
  destruct i as [v|]; [|exact H2].
  pose proof (Encode_headerWritten v tw2 H2) as H3.
  destruct (Encode Marshal v tw2) as [tw3 [e|]]; simpl in H3; [|exact H3].
  simpl. rewrite H3. exact H3.
Qed.

Lemma run_headerWritten (h : handler U Any) (tw : trackingResponseWriter U) :
  headerWritten (fst (fst (run Marshal h tw)))
  = headerWritten tw || writes h tw.
Proof.
  revert tw.
  induction h as [err|key value next IH|key next IH|statusCode next IH
                  |data next IH|next IH|i status next IH]; intros tw; simpl.
  - rewrite orb_false_r. reflexivity.
  - rewrite IH. reflexivity.
  - rewrite IH. reflexivity.
  - pose proof (tracking_WriteHeader_headerWritten statusCode tw) as Hd.
    destruct (tracking_WriteHeader statusCode tw) as [tw1 lg1]. simpl in Hd.
    specialize (IH tw1).
    destruct (run Marshal next tw1) as [[tw2 lg2] err]. simpl in *.
    rewrite IH, Hd, orb_true_r. reflexivity.
  - pose proof (tracking_Write_headerWritten data tw) as Hd.
    destruct (tracking_Write data tw) as [tw1 res]. simpl in Hd.
    rewrite IH, Hd, orb_true_r. reflexivity.
  - rewrite IH. reflexivity.
  - pose proof (EncodeJSONResponse_headerWritten i status tw) as Hd.
    destruct (EncodeJSONResponse Marshal i status tw) as [tw1 lg1].
    simpl in Hd. specialize (IH tw1).
    destruct (run Marshal next tw1) as [[tw2 lg2] err]. simpl in *.
    rewrite IH, Hd, orb_true_r. reflexivity.
Qed.

Lemma attempts_Write_writes (h : handler U Any) (tw : trackingResponseWriter U) :
  attempts_Write Marshal h tw = true ->
  headerWritten (fst (fst (run Marshal h tw))) = true.
Proof.
  revert tw.
  induction h as [err|key value next IH|key next IH|statusCode next IH
                  |data next IH|next IH|i status next IH]; intros tw; simpl.
  - discriminate.
  - apply IH.
  - apply IH.
  - intros Ha. specialize (IH _ Ha).
    destruct (tracking_WriteHeader statusCode tw) as [tw1 lg1]. simpl in IH.
    destruct (run Marshal next tw1) as [[tw2 lg2] err]. exact IH.
  - intros _.
    pose proof (tracking_Write_headerWritten data tw) as Hd.
    destruct (tracking_Write data tw) as [tw1 res]. simpl in Hd.
    rewrite run_headerWritten, Hd. reflexivity.
  - apply IH.
  - intros Ha. specialize (IH _ Ha).
    destruct (EncodeJSONResponse Marshal i status tw) as [tw1 lg1].
    simpl in IH.
    destruct (run Marshal next tw1) as [[tw2 lg2] err]. exact IH.
Qed.

(** What the wrapper does once the handler has returned an error with the
    flag set. *)
Lemma NewErrorHandler_after_response_started (fn : errorHandler U Any Request)
    (w : U) (r : Request) (tw1 : trackingResponseWriter U) (lg : list logline)
    (e : error) :
  run Marshal (fn r) (newTracking w) = (tw1, lg, Some e) ->
  headerWritten tw1 = true ->
  NewErrorHandler Marshal fn w r
  = (ResponseWriter tw1, lg ++ [LogErrorAfterResponseStarted e]).
Proof.
  intros Hrun Hw. unfold NewErrorHandler. rewrite Hrun, Hw. reflexivity.
Qed.

(** C3.  When the handler calls [WriteHeader] or [Write] on the tracking
    writer and then returns an error, of either kind, the wrapper leaves the
    wrapped writer as the handler left it and adds one log line for the
    error. *)
Theorem error_after_writing_is_only_logged (fn : errorHandler U Any Request)
    (w : U) (r : Request) (tw1 : trackingResponseWriter U) (lg : list logline)
    (e : error) :
  writes (fn r) (newTracking w) = true ->
  run Marshal (fn r) (newTracking w) = (tw1, lg, Some e) ->
  NewErrorHandler Marshal fn w r
  = (ResponseWriter tw1, lg ++ [LogErrorAfterResponseStarted e]).
Proof.
  intros Hwrites Hrun.
  apply NewErrorHandler_after_response_started; [exact Hrun|].
  pose proof (run_headerWritten (fn r) (newTracking w)) as Hh.
  rewrite Hrun, Hwrites in Hh. exact Hh.
Qed.

(** C9.  On a tracking writer, step 2 of [EncodeJSONResponse] leaves
    [headerWritten] set, whatever it was; when the encoder then fails, the
    function logs the failure and stops: the writer is as the encoder left
    it, and [http.Error] is not run. *)
Theorem EncodeJSONResponse_tracked_failure_is_only_logged (v : Any) (status : Z)
    (tw : trackingResponseWriter U) (e : error) :
  let w2 := fst (WriteHeader status
                   (HeaderSet "Content-Type" "application/json; charset=UTF-8" tw)) in
  let lg := snd (WriteHeader status
                   (HeaderSet "Content-Type" "application/json; charset=UTF-8" tw)) in
  snd (Encode Marshal v w2) = Some e ->
  headerWritten w2 = true
  /\ trackedHeaderWritten (fst (Encode Marshal v w2)) = Some true
  /\ EncodeJSONResponse Marshal (Some v) status tw
     = (fst (Encode Marshal v w2), lg ++ [LogFailedToEncodeAfterHeaders e]).
Proof.
  intros w2 lg Herr.
  pose proof (EncodeJSONResponse_step2_headerWritten status tw) as H2.
  fold w2 in H2.
  pose proof (Encode_headerWritten v w2 H2) as H3.
  split; [exact H2|]. split; [simpl; rewrite H3; reflexivity|].
  unfold EncodeJSONResponse. subst w2 lg.
  destruct (WriteHeader status _) as [tw2 lg2]. simpl in *.
  destruct (Encode Marshal v tw2) as [tw3 err]. simpl in *.
  subst err. rewrite H3. reflexivity.
Qed.

(** C10.  [Write] on a tracking writer sets [headerWritten] also when the
    wrapped writer reports an error or takes no byte; and when the handler
    has called [Write], whatever came of it, and then returns an error, the
    wrapper adds a log line and sends nothing. *)
Theorem failed_Write_still_marks_response_started
    (fn : errorHandler U Any Request) (w : U) (r : Request)
    (tw1 : trackingResponseWriter U) (lg : list logline) (e : error) :
  attempts_Write Marshal (fn r) (newTracking w) = true ->
  run Marshal (fn r) (newTracking w) = (tw1, lg, Some e) ->
  (forall (data : string) (tw : trackingResponseWriter U) (n : Z) (err : option error),
      snd (Write data (ResponseWriter tw)) = (n, err) ->
      headerWritten (fst (tracking_Write data tw)) = true
      /\ snd (tracking_Write data tw) = (n, err))
  /\ NewErrorHandler Marshal fn w r
     = (ResponseWriter tw1, lg ++ [LogErrorAfterResponseStarted e]).
Proof.
  intros Ha Hrun. split.
  - intros data tw n err Hres.
    unfold tracking_Write.
    destruct (Write data (ResponseWriter tw)) as [inner res]. simpl in *.
    split; [reflexivity|exact Hres].
  - apply NewErrorHandler_after_response_started; [exact Hrun|].
    pose proof (attempts_Write_writes (fn r) (newTracking w) Ha) as Hh.
    rewrite Hrun in Hh. exact Hh.
Qed.

End HandlerProperties.

(** ** Status codes that reach the wrapped writer *)

Section Forwarding.

Variable Any : Type.
Variable Marshal : Any -> string + error.
Variable Request : Type.

Implicit Types tw : trackingResponseWriter recorder.

Lemma count_WriteHeader_app (xs ys : list call) :
  count_WriteHeader (xs ++ ys) = (count_WriteHeader xs + count_WriteHeader ys)%nat.
Proof.
  unfold count_WriteHeader. rewrite List.filter_app, length_app. reflexivity.
Qed.

Lemma forwards_refl tw : forwards tw tw.
Proof.
  exists []. split.
  - rewrite app_nil_r. destruct tw as [[cs wr] hw]; reflexivity.
  - simpl. lia.
Qed.

Lemma forwards_trans tw1 tw2 tw3 :
  forwards tw1 tw2 -> forwards tw2 tw3 -> forwards tw1 tw3.
Proof.
  intros (a1 & E1 & C1) (a2 & E2 & C2).
  exists (a1 ++ a2). split.
  - rewrite E2, E1. simpl. rewrite app_assoc. reflexivity.
  - rewrite count_WriteHeader_app. lia.
Qed.

Lemma forwards_HeaderSet key value tw : forwards tw (HeaderSet key value tw).
Proof.
  exists [CallHeaderSet key value]. split; [reflexivity|simpl; lia].
Qed.

Lemma forwards_HeaderDel key tw : forwards tw (HeaderDel key tw).
Proof.
  exists [CallHeaderDel key]. split; [reflexivity|simpl; lia].
Qed.

Lemma forwards_WriteHeader statusCode tw :
  forwards tw (fst (WriteHeader statusCode tw)).
Proof.
  destruct tw as [w hw]. simpl. unfold tracking_WriteHeader. simpl.
  destruct hw; simpl.
  - apply forwards_refl.
  - exists [CallWriteHeader statusCode]. split; [reflexivity|simpl; lia].
Qed.

Lemma forwards_Write data tw : forwards tw (fst (Write data tw)).
Proof.
  destruct tw as [w hw]. simpl. unfold tracking_Write. simpl.
  unfold recorder_Write.
  destruct (write_result w (received w) data) as [n err]. simpl.
  exists [CallWrite data n err]. split; [reflexivity|].
  simpl. destruct hw; simpl; lia.
Qed.

Lemma forwards_http_Error msg code tw :
  forwards tw (fst (http_Error msg code tw)).
Proof.
  unfold http_Error.
  set (tw1 := HeaderDel _ tw). set (tw2 := HeaderSet _ _ tw1).
  set (tw3 := HeaderSet _ _ tw2).
  pose proof (forwards_WriteHeader code tw3) as F4.
  destruct (WriteHeader code tw3) as [tw4 lg]. simpl in F4.
  pose proof (forwards_Write (msg +:+ newline) tw4) as F5.
  destruct (Write (msg +:+ newline) tw4) as [tw5 res]. simpl in *.
  eapply forwards_trans; [apply forwards_HeaderDel|]. fold tw1.
  eapply forwards_trans; [apply forwards_HeaderSet|]. fold tw2.
  eapply forwards_trans; [apply forwards_HeaderSet|]. fold tw3.
  eapply forwards_trans; eassumption.
Qed.

Lemma forwards_Encode v tw : forwards tw (fst (Encode Marshal v tw)).
Proof.
  unfold Encode. destruct (Marshal v) as [text|err]; [|apply forwards_refl].
  pose proof (forwards_Write (text +:+ newline) tw) as F.
  destruct (Write (text +:+ newline) tw) as [tw' [n err]]. exact F.
Qed.

Lemma forwards_EncodeJSONResponse i status tw :
  forwards tw (fst (EncodeJSONResponse Marshal i status tw)).
Proof.
  unfold EncodeJSONResponse.
  set (tw1 := HeaderSet _ _ tw).
  assert (F1 : forwards tw tw1) by apply forwards_HeaderSet.
  pose proof (forwards_WriteHeader status tw1) as F2.
  destruct (WriteHeader status tw1) as [tw2 lg]. simpl in F2.
  pose proof (forwards_trans _ _ _ F1 F2) as F12.
  destruct i as [v|]; [|exact F12].
  pose proof (forwards_Encode v tw2) as F3.
  destruct (Encode Marshal v tw2) as [tw3 [e|]]; simpl in F3.
  - pose proof (forwards_http_Error (Error e) StatusInternalServerError tw3) as F4.
    destruct (trackedHeaderWritten tw3) as [[|]|];
      try destruct (http_Error (Error e) StatusInternalServerError tw3) as [tw4 lg4];
      simpl in *; eauto using forwards_trans.
  - eauto using forwards_trans.
Qed.

Lemma forwards_run (h : handler recorder Any) tw :
  forwards tw (fst (fst (run Marshal h tw))).
Proof.
  revert tw.
  induction h as [err|key value next IH|key next IH|statusCode next IH
                  |data next IH|next IH|i status next IH]; intros tw; simpl.
  - apply forwards_refl.
  - eapply forwards_trans; [apply (forwards_HeaderSet key value)|apply IH].
  - eapply forwards_trans; [apply (forwards_HeaderDel key)|apply IH].
  - pose proof (forwards_WriteHeader statusCode tw) as F1. simpl in F1.
    destruct (tracking_WriteHeader statusCode tw) as [tw1 lg1].
    specialize (IH tw1). destruct (run Marshal next tw1) as [[tw2 lg2] err].
    eapply forwards_trans; eassumption.
  - pose proof (forwards_Write data tw) as F1. simpl in F1.
    destruct (tracking_Write data tw) as [tw1 res].
    eapply forwards_trans; [exact F1|apply IH].
  - apply IH.
  - pose proof (forwards_EncodeJSONResponse i status tw) as F1.
    destruct (EncodeJSONResponse Marshal i status tw) as [tw1 lg1].
    specialize (IH tw1). destruct (run Marshal next tw1) as [[tw2 lg2] err].
    eapply forwards_trans; eassumption.
Qed.

(** C1.  Whatever the handler does on the tracking writer, calls of
    [EncodeJSONResponse] on it included, and whether or not the wrapper goes
    on to answer the error, the wrapped writer receives its old calls
    followed by new ones of which at most one is a [WriteHeader]. *)
Theorem status_forwarded_at_most_once (fn : errorHandler recorder Any Request)
    (w : recorder) (r : Request) :
  exists added : list call,
    received (fst (NewErrorHandler Marshal fn w r)) = received w ++ added
    /\ (count_WriteHeader added <= 1)%nat.
Proof.
  assert (F : exists tw', forwards (newTracking w) tw'
                /\ fst (NewErrorHandler Marshal fn w r) = ResponseWriter tw').
  { unfold NewErrorHandler.
    pose proof (forwards_run (fn r) (newTracking w)) as F1.
    destruct (run Marshal (fn r) (newTracking w)) as [[tw1 lg] [e|]]; simpl in F1.
    - destruct (headerWritten tw1) eqn:Hw; [exists tw1; split; [exact F1|reflexivity]|].
      destruct e as [msg|msg code].
      + pose proof (forwards_http_Error msg StatusInternalServerError tw1) as F2.
        destruct (http_Error msg StatusInternalServerError tw1) as [tw2 lg2].
        exists tw2. split; [eapply forwards_trans; eassumption|reflexivity].
      + pose proof (forwards_http_Error msg code tw1) as F2.
        destruct (http_Error msg code tw1) as [tw2 lg2].
        exists tw2. split; [eapply forwards_trans; eassumption|reflexivity].
    - exists tw1. split; [exact F1|reflexivity]. }
  destruct F as (tw' & (added & E & C) & ->).
  exists added. split.
  - rewrite E. reflexivity.
  - simpl in C. destruct (headerWritten tw'); simpl in C; lia.
Qed.

End Forwarding.

(** ** Responses seen by the client *)

Section Responses.

Variable Any : Type.
Variable Marshal : Any -> string + error.
Variable Request : Type.

Implicit Types tw : trackingResponseWriter recorder.

Lemma substring_whole (s : string) :
  String.substring 0 (String.length s) s = s.
Proof. induction s as [|a s IH]; simpl; [reflexivity|rewrite IH; reflexivity]. Qed.

Lemma append_contains (s t : string) : contains (s +:+ t) s.
Proof. exists "", t. reflexivity. Qed.

(** Header edits alone put nothing on the wire. *)
Lemma wire_header_edits (edits : list call) (s : wire) :
  forallb is_header_edit edits = true ->
  sent (fold_left wire_step edits s) = sent s
  /\ body (fold_left wire_step edits s) = body s.
Proof.
  revert s. induction edits as [|c edits IH]; intros s Hall; simpl.
  - split; reflexivity.
  - simpl in Hall. apply andb_true_iff in Hall as [Hc Hall].
    destruct (IH (wire_step s c) Hall) as [E1 E2]. rewrite E1, E2.
    destruct c; try discriminate; split; reflexivity.
Qed.

(** A handler that never calls [WriteHeader] or [Write] only edits
    headers. *)
Lemma run_without_writes (h : handler recorder Any) tw :
  writes h tw = false ->
  exists edits : list call,
    forallb is_header_edit edits = true
    /\ run Marshal h tw
       = (mkTracking
            (mkRecorder (received (ResponseWriter tw) ++ edits)
                        (write_result (ResponseWriter tw)))
            (headerWritten tw),
          [], snd (run Marshal h tw)).
Proof.
  revert tw.
  induction h as [err|key value next IH|key next IH|statusCode next IH
                  |data next IH|next IH|i status next IH]; intros tw; simpl;
    try discriminate.
  - intros _. exists []. split; [reflexivity|].
    rewrite app_nil_r. destruct tw as [[cs wr] hw]; reflexivity.
  - intros Hn. destruct (IH _ Hn) as (edits & Hall & E).
    exists (CallHeaderSet key value :: edits). split; [exact Hall|].
    rewrite E at 1. simpl. rewrite <- app_assoc. reflexivity.
  - intros Hn. destruct (IH _ Hn) as (edits & Hall & E).
    exists (CallHeaderDel key :: edits). split; [exact Hall|].
    rewrite E at 1. simpl. rewrite <- app_assoc. reflexivity.
  - intros Hn. destruct (IH _ _ Hn) as (edits & Hall & E).
    exists edits. split; [exact Hall|exact E].
Qed.

(** The calls the wrapped writer receives when the handler returned an
    error without having written. *)
Lemma NewErrorHandler_without_writes (fn : errorHandler recorder Any Request)
    (w : recorder) (r : Request) (e : error) :
  writes (fn r) (newTracking w) = false ->
  snd (run Marshal (fn r) (newTracking w)) = Some e ->
  exists (edits : list call),
    forallb is_header_edit edits = true
    /\ let code := match e with
                   | statusError _ code => code
                   | errorString _ => StatusInternalServerError
                   end in
       let before := received w ++ edits
                     ++ [CallHeaderDel "Content-Length";
                         CallHeaderSet "Content-Type" "text/plain; charset=utf-8";
                         CallHeaderSet "X-Content-Type-Options" "nosniff";
                         CallWriteHeader code] in
       let res := write_result w before (Error e +:+ newline) in
       NewErrorHandler Marshal fn w r
       = (mkRecorder (before ++ [CallWrite (Error e +:+ newline) (fst res) (snd res)])
                     (write_result w), []).
Proof.
  intros Hn He.
  destruct (run_without_writes (fn r) (newTracking w) Hn) as (edits & Hall & E).
  exists edits. split; [exact Hall|].
  unfold NewErrorHandler. rewrite E, He. simpl.
  assert (G : forall msg code,
    (let '(tw2, lg') :=
       http_Error msg code
         (mkTracking (mkRecorder (received w ++ edits) (write_result w)) false) in
     (ResponseWriter tw2, [] ++ lg'))
    = (let before := received w ++ edits
                     ++ [CallHeaderDel "Content-Length";
                         CallHeaderSet "Content-Type" "text/plain; charset=utf-8";
                         CallHeaderSet "X-Content-Type-Options" "nosniff";
                         CallWriteHeader code] in
       let res := write_result w before (msg +:+ newline) in
       (mkRecorder (before ++ [CallWrite (msg +:+ newline) (fst res) (snd res)])
                   (write_result w), []))).
  { intros msg code. unfold http_Error. simpl.
    unfold tracking_WriteHeader, tracking_Write. simpl.
    unfold recorder_Write, recorder_receive. simpl.
    repeat rewrite <- app_assoc. simpl.
    destruct (write_result w _ (msg +:+ newline)) as [n werr]. simpl.
    repeat rewrite <- app_assoc. reflexivity. }
  destruct e as [msg|msg code]; simpl; apply G.
Qed.

(** C2.  The handler has not called [WriteHeader] or [Write] and returns an
    error; the wrapped writer is fresh and takes writes whole.  Then the
    client sees the content type text/plain, a body that contains the
    error's message, and as status the error's own code when it is a
    [statusError], 500 otherwise. *)
Theorem error_without_writing_becomes_response
    (fn : errorHandler recorder Any Request) (r : Request)
    (wr : list call -> string -> Z * option error) (e : error) :
  (forall cs data, fst (wr cs data) = Z.of_nat (String.length data)) ->
  writes (fn r) (newTracking (mkRecorder [] wr)) = false ->
  snd (run Marshal (fn r) (newTracking (mkRecorder [] wr))) = Some e ->
  let resp :=
    response_of (received (fst (NewErrorHandler Marshal fn (mkRecorder [] wr) r))) in
  Header resp !! "Content-Type" = Some ["text/plain; charset=utf-8"]
  /\ Body resp = Error e +:+ newline
  /\ contains (Body resp) (Error e)
  /\ match e with
     | statusError _ code => Code resp = code
     | errorString _ => Code resp = StatusInternalServerError
     end.
Proof.
  intros Hacc Hn He.
  destruct (NewErrorHandler_without_writes fn (mkRecorder [] wr) r e Hn He)
    as (edits & Hall & E).
  simpl in E. rewrite E. clear E. simpl.
  unfold response_of. rewrite !fold_left_app.
  destruct (wire_header_edits edits (mkWire ∅ None "") Hall) as [Es Eb].
  destruct (fold_left wire_step edits (mkWire ∅ None "")) as [p s b].
  simpl in Es, Eb. subst s b. simpl.
  rewrite Hacc, Nat2Z.id, substring_whole.
  split; [|split; [|split]].
  - rewrite lookup_insert_ne by discriminate. apply lookup_insert_eq.
  - reflexivity.
  - exact (append_contains (Error e) newline).
  - destruct e; reflexivity.
Qed.

End Responses.

(** ** [EncodeJSONResponse] on a writer that is not tracked *)

Section PlainWriter.

Variable Any : Type.
Variable Marshal : Any -> string + error.

(** When marshalling fails on a plain writer, [http.Error] runs after the
    status of step 2 has gone out: the writer receives a second
    [WriteHeader]. *)
Lemma EncodeJSONResponse_plain_failure (v : Any) (e : error) (status : Z)
    (w : recorder) :
  Marshal v = inr e ->
  let before := received w
                ++ [CallHeaderSet "Content-Type" "application/json; charset=UTF-8";
                    CallWriteHeader status;
                    CallHeaderDel "Content-Length";
                    CallHeaderSet "Content-Type" "text/plain; charset=utf-8";
                    CallHeaderSet "X-Content-Type-Options" "nosniff";
                    CallWriteHeader StatusInternalServerError] in
  let res := write_result w before (Error e +:+ newline) in
  EncodeJSONResponse Marshal (Some v) status w
  = (mkRecorder (before ++ [CallWrite (Error e +:+ newline) (fst res) (snd res)])
                (write_result w), []).
Proof.
  intros Hm. unfold EncodeJSONResponse, Encode. simpl. rewrite Hm. simpl.
  unfold http_Error. simpl. unfold recorder_Write, recorder_receive. simpl.
  repeat rewrite <- app_assoc. simpl.
  destruct (write_result w _ (Error e +:+ newline)) as [n werr]. simpl.
  repeat rewrite <- app_assoc. reflexivity.
Qed.

(** C6, as the code has it.  For a value that marshals to [text], on a fresh
    writer that takes writes whole and without error, plain or wrapped in a
    fresh tracking writer, the client sees status 200, the single header
    Content-Type: application/json; charset=UTF-8, and as body [text]
    followed by one newline. *)
Theorem EncodeJSONResponse_serializable (v : Any) (text : string)
    (wr : list call -> string -> Z * option error) :
  Marshal v = inl text ->
  (forall cs data, wr cs data = (Z.of_nat (String.length data), None)) ->
  let expected :=
    mkResponse StatusOK
      {[ "Content-Type" := ["application/json; charset=UTF-8"] ]}
      (text +:+ newline) in
  response_of
    (received (fst (EncodeJSONResponse Marshal (Some v) StatusOK (mkRecorder [] wr))))
  = expected
  /\ response_of
       (received
          (ResponseWriter
             (fst (EncodeJSONResponse Marshal (Some v) StatusOK
                     (newTracking (mkRecorder [] wr))))))
     = expected.
Proof.
  intros Hm Hacc expected.
  unfold EncodeJSONResponse, Encode. simpl. rewrite Hm. simpl.
  unfold tracking_WriteHeader, tracking_Write. simpl.
  unfold recorder_Write. simpl. rewrite !Hacc. simpl.
  unfold response_of. simpl. rewrite Nat2Z.id, substring_whole.
  split; reflexivity.
Qed.

End PlainWriter.

(** C5, at a channel sent to a fresh plain writer with status 200.
    Marshalling fails; the writer has already received [WriteHeader 200]
    and now receives [WriteHeader 500] as well, so the client sees status
    200 and the JSON content type with the error text as body, not a 500
    response. *)
Theorem EncodeJSONResponse_fallback_after_status_sent :
  let w := fst (EncodeJSONResponse sample_Marshal (Some sample_chan) StatusOK
                  (mkRecorder [] accepts_all)) in
  received w
  = [CallHeaderSet "Content-Type" "application/json; charset=UTF-8";
     CallWriteHeader 200;
     CallHeaderDel "Content-Length";
     CallHeaderSet "Content-Type" "text/plain; charset=utf-8";
     CallHeaderSet "X-Content-Type-Options" "nosniff";
     CallWriteHeader 500;
     CallWrite ("json: unsupported type: chan int" +:+ newline) 33 None]
  /\ count_WriteHeader (received w) = 2%nat
  /\ Code (response_of (received w)) = 200
  /\ Header (response_of (received w)) !! "Content-Type"
     = Some ["application/json; charset=UTF-8"]
  /\ Body (response_of (received w))
     = "json: unsupported type: chan int" +:+ newline.
Proof.
  simpl. split; [reflexivity|]. split; [reflexivity|].
  split; [reflexivity|]. split; [|reflexivity].
  vm_compute. reflexivity.
Qed.

(** C6, in the spec's wording (body equal to the JSON text), fails: [true]
    marshals to the four bytes
    [true], and the body the client receives is not those four bytes. *)
Lemma EncodeJSONResponse_body_is_not_the_bare_JSON_text :
  sample_Marshal sample_true = inl "true"
  /\ ~ (let resp :=
          response_of
            (received (fst (EncodeJSONResponse sample_Marshal (Some sample_true)
                              StatusOK (mkRecorder [] accepts_all)))) in
        Code resp = 200
        /\ Header resp !! "Content-Type" = Some ["application/json; charset=UTF-8"]
        /\ Body resp = "true").
Proof.
  split; [reflexivity|].
  intros (_ & _ & Hbody). vm_compute in Hbody. discriminate Hbody.
Qed.

(** ** Instances at concrete handlers *)

Lemma EncodeJSONResponse_serializable_witness :
  response_of
    (received (fst (EncodeJSONResponse sample_Marshal (Some sample_true) StatusOK
                      (mkRecorder [] accepts_all))))
  = mkResponse 200 {[ "Content-Type" := ["application/json; charset=UTF-8"] ]}
      ("true" +:+ newline).
Proof.
  apply (EncodeJSONResponse_serializable sample sample_Marshal sample_true "true"
           accepts_all).
  - reflexivity.
  - intros cs data. reflexivity.
Defined.

Lemma error_without_writing_becomes_response_witness :
  let resp :=
    response_of
      (received
         (fst (NewErrorHandler sample_Marshal
                 (fun _ : unit => Return (Some (statusError "not found" 404)))
                 (mkRecorder [] accepts_all) tt))) in
  Header resp !! "Content-Type" = Some ["text/plain; charset=utf-8"]
  /\ Body resp = "not found" +:+ newline
  /\ contains (Body resp) "not found"
  /\ Code resp = 404.
Proof.
  apply (error_without_writing_becomes_response sample sample_Marshal unit
           (fun _ => Return (Some (statusError "not found" 404))) tt accepts_all
           (statusError "not found" 404)).
  - intros cs data. reflexivity.
  - reflexivity.
  - reflexivity.
Defined.

Lemma error_after_writing_is_only_logged_witness :
  NewErrorHandler sample_Marshal
    (fun _ : unit =>
       DoWriteHeader 200
         (DoWrite "ok" (fun _ => Return (Some (errorString "boom")))))
    (mkRecorder [] accepts_all) tt
  = (mkRecorder [CallWriteHeader 200; CallWrite "ok" 2 None] accepts_all,
     [LogErrorAfterResponseStarted (errorString "boom")]).
Proof.
  apply (error_after_writing_is_only_logged sample sample_Marshal unit
           (fun _ => DoWriteHeader 200
                       (DoWrite "ok" (fun _ => Return (Some (errorString "boom")))))
           (mkRecorder [] accepts_all) tt
           (mkTracking
              (mkRecorder [CallWriteHeader 200; CallWrite "ok" 2 None] accepts_all)
              true)
           [] (errorString "boom")).
  - reflexivity.
  - reflexivity.
Defined.

Lemma EncodeJSONResponse_tracked_failure_is_only_logged_witness :
  EncodeJSONResponse sample_Marshal (Some sample_chan) 200
    (newTracking (mkRecorder [] accepts_all))
  = (mkTracking
       (mkRecorder [CallHeaderSet "Content-Type" "application/json; charset=UTF-8";
                    CallWriteHeader 200] accepts_all)
       true,
     [LogFailedToEncodeAfterHeaders
        (errorString "json: unsupported type: chan int")]).
Proof.
  refine (proj2 (proj2
    (EncodeJSONResponse_tracked_failure_is_only_logged sample sample_Marshal
       sample_chan 200 (newTracking (mkRecorder [] accepts_all))
       (errorString "json: unsupported type: chan int") _))).
  reflexivity.
Defined.

Lemma failed_Write_still_marks_response_started_witness :
  NewErrorHandler sample_Marshal
    (fun _ : unit => DoWrite "data" (fun _ => Return (Some (errorString "boom"))))
    (mkRecorder [] rejects_all) tt
  = (mkRecorder
       [CallWrite "data" 0 (Some (errorString "write: broken pipe"))] rejects_all,
     [LogErrorAfterResponseStarted (errorString "boom")]).
Proof.
  refine (proj2
    (failed_Write_still_marks_response_started sample sample_Marshal unit
       (fun _ => DoWrite "data" (fun _ => Return (Some (errorString "boom"))))
       (mkRecorder [] rejects_all) tt
       (mkTracking
          (mkRecorder
             [CallWrite "data" 0 (Some (errorString "write: broken pipe"))]
             rejects_all)
          true)
       [] (errorString "boom") _ _)).
  - reflexivity.
  - reflexivity.
Defined.

(** * Further properties of handlers.go *)

(** ** Relations kept by every call a handler can make

    A relation on tracking writers over a recorder that is reflexive,
    transitive and kept by the four methods is kept by [http.Error], by the
    encoder, by [EncodeJSONResponse] and by every handler. *)
Section Closure.

Variable Any : Type.
Variable Marshal : Any -> string + error.

Implicit Types tw : trackingResponseWriter recorder.

Variable R : trackingResponseWriter recorder -> trackingResponseWriter recorder -> Prop.
Hypothesis R_refl : forall tw, R tw tw.
Hypothesis R_trans : forall tw1 tw2 tw3, R tw1 tw2 -> R tw2 tw3 -> R tw1 tw3.
Hypothesis R_HeaderSet : forall key value tw, R tw (HeaderSet key value tw).
Hypothesis R_HeaderDel : forall key tw, R tw (HeaderDel key tw).
Hypothesis R_WriteHeader : forall statusCode tw, R tw (fst (WriteHeader statusCode tw)).
Hypothesis R_Write : forall data tw, R tw (fst (Write data tw)).

Lemma closure_http_Error msg code tw : R tw (fst (http_Error msg code tw)).
Proof.
  unfold http_Error.
  set (tw1 := HeaderDel _ tw). set (tw2 := HeaderSet _ _ tw1).
  set (tw3 := HeaderSet _ _ tw2).
  pose proof (R_WriteHeader code tw3) as F4.
  destruct (WriteHeader code tw3) as [tw4 lg]. simpl in F4.
  pose proof (R_Write (msg +:+ newline) tw4) as F5.
  destruct (Write (msg +:+ newline) tw4) as [tw5 res]. simpl in *.
  eapply R_trans; [apply R_HeaderDel|]. fold tw1.
  eapply R_trans; [apply R_HeaderSet|]. fold tw2.
  eapply R_trans; [apply R_HeaderSet|]. fold tw3.
  eapply R_trans; eassumption.
Qed.

Lemma closure_Encode v tw : R tw (fst (Encode Marshal v tw)).
Proof.
  unfold Encode. destruct (Marshal v) as [text|err]; [|apply R_refl].
  pose proof (R_Write (text +:+ newline) tw) as F.
  destruct (Write (text +:+ newline) tw) as [tw' [n err]]. exact F.
Qed.

Lemma closure_EncodeJSONResponse i status tw :
  R tw (fst (EncodeJSONResponse Marshal i status tw)).
Proof.
  unfold EncodeJSONResponse.
  set (tw1 := HeaderSet _ _ tw).
  assert (F1 : R tw tw1) by apply R_HeaderSet.
  pose proof (R_WriteHeader status tw1) as F2.
  destruct (WriteHeader status tw1) as [tw2 lg]. simpl in F2.
  pose proof (R_trans _ _ _ F1 F2) as F12.
  destruct i as [v|]; [|exact F12].
  pose proof (closure_Encode v tw2) as F3.
  destruct (Encode Marshal v tw2) as [tw3 [e|]]; simpl in F3.
  - pose proof (closure_http_Error (Error e) StatusInternalServerError tw3) as F4.
    destruct (trackedHeaderWritten tw3) as [[|]|];
      try destruct (http_Error (Error e) StatusInternalServerError tw3) as [tw4 lg4];
      simpl in *; eauto.
  - eauto.
Qed.

Lemma closure_run (h : handler recorder Any) tw :
  R tw (fst (fst (run Marshal h tw))).
Proof.
  revert tw.
  induction h as [err|key value next IH|key next IH|statusCode next IH
                  |data next IH|next IH|i status next IH]; intros tw; simpl.
  - apply R_refl.
  - eapply R_trans; [apply (R_HeaderSet key value)|apply IH].
  - eapply R_trans; [apply (R_HeaderDel key)|apply IH].
  - pose proof (R_WriteHeader statusCode tw) as F1. simpl in F1.
    destruct (tracking_WriteHeader statusCode tw) as [tw1 lg1].
    specialize (IH tw1). destruct (run Marshal next tw1) as [[tw2 lg2] err].
    eapply R_trans; eassumption.
  - pose proof (R_Write data tw) as F1. simpl in F1.
    destruct (tracking_Write data tw) as [tw1 res].
    eapply R_trans; [exact F1|apply IH].
  - apply IH.
  - pose proof (closure_EncodeJSONResponse i status tw) as F1.
    destruct (EncodeJSONResponse Marshal i status tw) as [tw1 lg1].
    specialize (IH tw1). destruct (run Marshal next tw1) as [[tw2 lg2] err].
    eapply R_trans; eassumption.
Qed.

End Closure.

(** ** The tracking writer: order of status and body *)

Section StatusAfterBody.

Context {U : Type} `{ResponseWriterOps U}.

(** X1.  A [WriteHeader] that follows a [Write] on a tracking writer is
    skipped, whatever the flag was before the [Write]: the writer, the
    wrapped one included, stays as the [Write] left it, and the skipped
    status is logged. *)
Theorem WriteHeader_after_Write_is_skipped (data : string) (statusCode : Z)
    (tw : trackingResponseWriter U) :
  tracking_WriteHeader statusCode (fst (tracking_Write data tw))
  = (fst (tracking_Write data tw), [LogSkippingDuplicateWriteHeader statusCode]).
Proof.
  pose proof (tracking_Write_headerWritten data tw) as Hw.
  unfold tracking_WriteHeader. rewrite Hw. reflexivity.
Qed.

End StatusAfterBody.

Section BodyIntegrity.

Implicit Types tw : trackingResponseWriter recorder.

Lemma writes_of_app (xs ys : list call) :
  writes_of (xs ++ ys) = writes_of xs ++ writes_of ys.
Proof. unfold writes_of. apply omap_app. Qed.

Lemma invoke_writes (m : method) tw :
  writes_of (received (ResponseWriter (invoke tw m)))
  = writes_of (received (ResponseWriter tw)) ++ issued_writes [m].
Proof.
  destruct tw as [w hw]. destruct m as [statusCode|data|]; simpl.
  - unfold tracking_WriteHeader. simpl. destruct hw; simpl.
    + rewrite app_nil_r. reflexivity.
    + rewrite writes_of_app. simpl. reflexivity.
  - unfold tracking_Write. simpl. unfold recorder_Write.
    destruct (write_result w (received w) data) as [n err]. simpl.
    rewrite writes_of_app. reflexivity.
  - rewrite app_nil_r. reflexivity.
Qed.

(** X2.  Through any sequence of [WriteHeader], [Write] and [Unwrap] calls on
    a tracking writer, the wrapped writer receives the data of every [Write]
    that was made, none dropped, none added, in the order they were made. *)
Theorem Writes_are_all_forwarded_in_order (ms : list method) tw :
  writes_of (received (ResponseWriter (fold_left invoke ms tw)))
  = writes_of (received (ResponseWriter tw)) ++ issued_writes ms.
Proof.
  revert tw. induction ms as [|m ms IH]; intros tw; simpl.
  - rewrite app_nil_r. reflexivity.
  - rewrite IH, invoke_writes. rewrite <- app_assoc. f_equal.
    unfold issued_writes. simpl. destruct m; reflexivity.
Qed.

End BodyIntegrity.

(** ** [EncodeJSONResponse]: nil values, repeated calls, failing writes *)

Section EncodeMore.

Variable Any : Type.
Variable Marshal : Any -> string + error.
Variable Request : Type.


(** X4.  On a tracking writer whose flag is already set, for instance on a
    second [EncodeJSONResponse] in one request, the status is skipped and
    logged, and the body is written all the same: the wrapped writer
    receives the content-type edit and the JSON text with its newline, and
    no [WriteHeader].  A failure of that write is logged after it. *)
Theorem EncodeJSONResponse_after_headers_still_writes_body (v : Any) (text : string)
    (status : Z) (w : recorder) :
  Marshal v = inl text ->
  let res :=
    write_result w
      (received w ++ [CallHeaderSet "Content-Type" "application/json; charset=UTF-8"])
      (text +:+ newline) in
  EncodeJSONResponse Marshal (Some v) status (mkTracking w true)
  = (mkTracking
       (mkRecorder
          (received w
           ++ [CallHeaderSet "Content-Type" "application/json; charset=UTF-8";
               CallWrite (text +:+ newline) (fst res) (snd res)])
          (write_result w))
       true,
     LogSkippingDuplicateWriteHeader status
     :: match snd res with
        | Some e => [LogFailedToEncodeAfterHeaders e]
        | None => []
        end).
Proof.
  intros Hm. unfold EncodeJSONResponse, Encode. simpl.
  unfold tracking_WriteHeader. simpl. rewrite Hm. simpl.
  unfold tracking_Write. simpl. unfold recorder_Write, recorder_receive. simpl.
  destruct (write_result w _ (text +:+ newline)) as [n [e|]]; simpl;
    rewrite <- app_assoc; reflexivity.
Qed.

(** X5.  On a writer that is not tracked, when the [Write] of the body
    fails, [EncodeJSONResponse] goes on to [http.Error] with the write
    error: the writer, which has the status and the failed write already,
    receives a second [WriteHeader], with 500, and a second [Write], with
    the error's message. *)
Theorem EncodeJSONResponse_plain_write_failure (v : Any) (text : string)
    (status : Z) (w : recorder) (n : Z) (e : error) :
  Marshal v = inl text ->
  write_result w
    (received w ++ [CallHeaderSet "Content-Type" "application/json; charset=UTF-8";
                    CallWriteHeader status])
    (text +:+ newline) = (n, Some e) ->
  let added :=
    [CallHeaderSet "Content-Type" "application/json; charset=UTF-8";
     CallWriteHeader status;
     CallWrite (text +:+ newline) n (Some e);
     CallHeaderDel "Content-Length";
     CallHeaderSet "Content-Type" "text/plain; charset=utf-8";
     CallHeaderSet "X-Content-Type-Options" "nosniff";
     CallWriteHeader StatusInternalServerError] in
  let res := write_result w (received w ++ added) (Error e +:+ newline) in
  EncodeJSONResponse Marshal (Some v) status w
  = (mkRecorder
       (received w ++ added ++ [CallWrite (Error e +:+ newline) (fst res) (snd res)])
       (write_result w), [])
  /\ count_WriteHeader added = 2%nat.
Proof.
  intros Hm Hw. split; [|reflexivity].
  unfold EncodeJSONResponse, Encode. simpl. rewrite Hm. simpl.
  unfold recorder_Write at 1. simpl.
  repeat rewrite <- app_assoc. simpl. rewrite Hw. simpl.
  unfold http_Error. simpl. unfold recorder_Write, recorder_receive. simpl.
  repeat rewrite <- app_assoc. simpl.
  destruct (write_result w _ (Error e +:+ newline)) as [n' werr]. simpl.
  repeat rewrite <- app_assoc. reflexivity.
Qed.



End EncodeMore.

(** ** [NewErrorHandler]: what the wrapper sends and what it logs *)

Section WrapperMore.

Variable Any : Type.
Variable Marshal : Any -> string + error.
Variable Request : Type.

Implicit Types tw : trackingResponseWriter recorder.

Lemma has_output_app (xs ys : list call) :
  has_output (xs ++ ys) = has_output xs || has_output ys.
Proof. unfold has_output. apply existsb_app. Qed.

Lemma responds_refl tw : responds tw tw.
Proof.
  exists []. split.
  - rewrite app_nil_r. destruct tw as [[cs wr] hw]; reflexivity.
  - intros Hw. left. exact Hw.
Qed.

Lemma responds_trans tw1 tw2 tw3 :
  responds tw1 tw2 -> responds tw2 tw3 -> responds tw1 tw3.
Proof.
  intros (a1 & E1 & C1) (a2 & E2 & C2).
  exists (a1 ++ a2). split.
  - rewrite E2, E1. simpl. rewrite app_assoc. reflexivity.
  - intros H3. rewrite has_output_app.
    destruct (C2 H3) as [H2|H2]; [|right; rewrite H2; apply orb_true_r].
    destruct (C1 H2) as [H1|H1]; [left; exact H1|right; rewrite H1; reflexivity].
Qed.

Lemma responds_HeaderSet key value tw : responds tw (HeaderSet key value tw).
Proof.
  exists [CallHeaderSet key value]. split; [reflexivity|]. intros Hw. left. exact Hw.
Qed.

Lemma responds_HeaderDel key tw : responds tw (HeaderDel key tw).
Proof.
  exists [CallHeaderDel key]. split; [reflexivity|]. intros Hw. left. exact Hw.
Qed.

Lemma responds_WriteHeader statusCode tw :
  responds tw (fst (WriteHeader statusCode tw)).
Proof.
  destruct tw as [w hw]. simpl. unfold tracking_WriteHeader. simpl.
  destruct hw; simpl.
  - apply responds_refl.
  - exists [CallWriteHeader statusCode]. split; [reflexivity|]. intros _. right. reflexivity.
Qed.

Lemma responds_Write data tw : responds tw (fst (Write data tw)).
Proof.
  destruct tw as [w hw]. simpl. unfold tracking_Write. simpl.
  unfold recorder_Write.
  destruct (write_result w (received w) data) as [n err]. simpl.
  exists [CallWrite data n err]. split; [reflexivity|]. intros _. right. reflexivity.
Qed.

Lemma responds_run (h : handler recorder Any) tw :
  responds tw (fst (fst (run Marshal h tw))).
Proof.
  apply closure_run.
  - apply responds_refl.
  - apply responds_trans.
  - apply responds_HeaderSet.
  - apply responds_HeaderDel.
  - apply responds_WriteHeader.
  - apply responds_Write.
Qed.

Lemma responds_http_Error msg code tw : responds tw (fst (http_Error msg code tw)).
Proof.
  apply closure_http_Error.
  - apply responds_trans.
  - apply responds_HeaderSet.
  - apply responds_HeaderDel.
  - apply responds_WriteHeader.
  - apply responds_Write.
Qed.

(** X8.  When the handler returns nil and has called neither [WriteHeader]
    nor [Write], the wrapper sends nothing of its own: the wrapped writer
    has received only the handler's header edits, and nothing is logged. *)
Theorem NewErrorHandler_silent_success (fn : errorHandler recorder Any Request)
    (w : recorder) (r : Request) :
  writes (fn r) (newTracking w) = false ->
  snd (run Marshal (fn r) (newTracking w)) = None ->
  exists edits : list call,
    forallb is_header_edit edits = true
    /\ NewErrorHandler Marshal fn w r
       = (mkRecorder (received w ++ edits) (write_result w), []).
Proof.
  intros Hn Hret.
  destruct (run_without_writes Any Marshal (fn r) (newTracking w) Hn)
    as (edits & Hall & E).
  exists edits. split; [exact Hall|].
  unfold NewErrorHandler. rewrite E, Hret. reflexivity.
Qed.

(** X9.  When the handler returns an error, the wrapper adds the log line
    for it exactly when the handler had called [WriteHeader] or [Write]: an
    error that is answered with an error response is not logged. *)
Theorem NewErrorHandler_logs_error_iff_response_started
    (fn : errorHandler recorder Any Request) (w : recorder) (r : Request)
    (tw1 : trackingResponseWriter recorder) (lg : list logline) (e : error) :
  run Marshal (fn r) (newTracking w) = (tw1, lg, Some e) ->
  snd (NewErrorHandler Marshal fn w r)
  = lg ++ (if writes (fn r) (newTracking w)
           then [LogErrorAfterResponseStarted e] else []).
Proof.
  intros Hrun. destruct (writes (fn r) (newTracking w)) eqn:Hw.
  - pose proof (run_headerWritten Any Marshal (fn r) (newTracking w)) as Hh.
    rewrite Hrun, Hw in Hh. simpl in Hh.
    rewrite (NewErrorHandler_after_response_started Any Marshal Request
               fn w r tw1 lg e Hrun Hh).
    reflexivity.
  - assert (He : snd (run Marshal (fn r) (newTracking w)) = Some e)
      by (rewrite Hrun; reflexivity).
    destruct (NewErrorHandler_without_writes Any Marshal Request fn w r e Hw He)
      as (edits & _ & E).
    destruct (run_without_writes Any Marshal (fn r) (newTracking w) Hw)
      as (edits' & _ & E').
    rewrite Hrun in E'. injection E' as _ Hlg.
    simpl in E. rewrite E, Hlg. reflexivity.
Qed.

(** X10.  When the handler returns an error, a response has been started by
    the time the wrapper returns: among the calls the wrapped writer
    received there is a [WriteHeader] or a [Write], made by the handler or
    by the wrapper's error response. *)
Theorem NewErrorHandler_error_always_starts_response
    (fn : errorHandler recorder Any Request) (w : recorder) (r : Request)
    (e : error) :
  snd (run Marshal (fn r) (newTracking w)) = Some e ->
  exists added : list call,
    received (fst (NewErrorHandler Marshal fn w r)) = received w ++ added
    /\ has_output added = true.
Proof.
  intros He. unfold NewErrorHandler.
  pose proof (responds_run (fn r) (newTracking w)) as F1.
  destruct (run Marshal (fn r) (newTracking w)) as [[tw1 lg] err].
  simpl in He, F1. subst err.
  destruct F1 as (a1 & E1 & C1). simpl in E1, C1.
  destruct (headerWritten tw1) eqn:Hw.
  - exists a1. simpl. rewrite E1. split; [reflexivity|].
    destruct (C1 eq_refl) as [Hf|Ho]; [discriminate|exact Ho].
  - assert (G : forall msg code,
        exists added,
          received (ResponseWriter (fst (http_Error msg code tw1)))
          = received w ++ added /\ has_output added = true).
    { intros msg code.
      pose proof (responds_http_Error msg code tw1) as (a2 & E2 & C2).
      pose proof (http_Error_headerWritten msg code tw1) as H2.
      exists (a1 ++ a2). split.
      - rewrite E2, E1. simpl. rewrite app_assoc. reflexivity.
      - rewrite has_output_app. destruct (C2 H2) as [Hf|Ho].
        + rewrite Hw in Hf. discriminate.
        + rewrite Ho. apply orb_true_r. }
    destruct e as [msg|msg code].
    + destruct (G msg StatusInternalServerError) as (added & E & Ho).
      destruct (http_Error msg StatusInternalServerError tw1) as [tw2 lg2].
      exists added. split; [exact E|exact Ho].
    + destruct (G msg code) as (added & E & Ho).
      destruct (http_Error msg code tw1) as [tw2 lg2].
      exists added. split; [exact E|exact Ho].
Qed.

End WrapperMore.

(** ** The status the client sees *)

Section FirstStatus.

Variable Any : Type.
Variable Marshal : Any -> string + error.
Variable Request : Type.



(** X12.  [Unimplemented] makes one call, [WriteHeader 501], and no [Write].
    On a writer that has so far only received header edits the client sees
    status 501 and an empty body; on a tracking writer whose flag is set it
    changes nothing and the status is only logged as skipped. *)
Theorem Unimplemented_sends_501_only (w : recorder) :
  forallb is_header_edit (received w) = true ->
  let out := fst (Unimplemented w) in
  received out = received w ++ [CallWriteHeader 501]
  /\ Code (response_of (received out)) = 501
  /\ Body (response_of (received out)) = ""
  /\ Unimplemented (mkTracking w true)
     = (mkTracking w true, [LogSkippingDuplicateWriteHeader 501]).
Proof.
  intros Hall. simpl. split; [reflexivity|].
  unfold response_of. rewrite !fold_left_app.
  destruct (wire_header_edits (received w) (mkWire ∅ None "") Hall) as [Es Eb].
  destruct (fold_left wire_step (received w) (mkWire ∅ None "")) as [p s b].
  simpl in Es, Eb. subst s b. simpl.
  split; [reflexivity|]. split; reflexivity.
Qed.

End FirstStatus.

(** ** Which status is forwarded *)

Section ForwardedStatus.

Implicit Types tw : trackingResponseWriter recorder.

Lemma statuses_of_app (xs ys : list call) :
  statuses_of (xs ++ ys) = statuses_of xs ++ statuses_of ys.
Proof. unfold statuses_of. apply omap_app. Qed.

Lemma invoke_all_statuses (ms : list method) tw :
  statuses_of (received (ResponseWriter (fold_left invoke ms tw)))
  = statuses_of (received (ResponseWriter tw))
    ++ (if headerWritten tw then [] else option_list (first_status ms)).
Proof.
  revert tw. induction ms as [|m ms IH]; intros tw; simpl.
  - destruct (headerWritten tw); rewrite app_nil_r; reflexivity.
  - rewrite IH. destruct tw as [w hw]. destruct m as [statusCode|data|]; simpl.
    + unfold tracking_WriteHeader. simpl. destruct hw; simpl; [reflexivity|].
      rewrite statuses_of_app, app_nil_r. reflexivity.
    + unfold tracking_Write. simpl. unfold recorder_Write.
      destruct (write_result w (received w) data) as [n err]. simpl.
      rewrite statuses_of_app. simpl.
      destruct hw; rewrite ?app_nil_r; reflexivity.
    + reflexivity.
Qed.

(** X13.  Of a sequence of [WriteHeader], [Write] and [Unwrap] calls on a
    fresh tracking writer, the wrapped writer receives as status exactly
    the code of the first [WriteHeader], and only if no [Write] came before
    it; otherwise it receives no status at all. *)
Theorem forwarded_status_is_the_first (ms : list method) (w : recorder) :
  statuses_of (received (ResponseWriter (fold_left invoke ms (newTracking w))))
  = statuses_of (received w) ++ option_list (first_status ms).
Proof. rewrite invoke_all_statuses. reflexivity. Qed.

End ForwardedStatus.

Section EncodeOverHeaders.

Variable Any : Type.
Variable Marshal : Any -> string + error.


End EncodeOverHeaders.

(** ** Instances of the further properties *)


Lemma EncodeJSONResponse_after_headers_still_writes_body_witness :
  EncodeJSONResponse sample_Marshal (Some sample_true) 200
    (mkTracking (mkRecorder [CallWriteHeader 200] accepts_all) true)
  = (mkTracking
       (mkRecorder
          [CallWriteHeader 200;
           CallHeaderSet "Content-Type" "application/json; charset=UTF-8";
           CallWrite ("true" +:+ newline) 5 None]
          accepts_all)
       true,
     [LogSkippingDuplicateWriteHeader 200]).
Proof.
  apply (EncodeJSONResponse_after_headers_still_writes_body sample sample_Marshal
           sample_true "true" 200 (mkRecorder [CallWriteHeader 200] accepts_all)).
  reflexivity.
Defined.

Lemma EncodeJSONResponse_plain_write_failure_witness :
  received
    (fst (EncodeJSONResponse sample_Marshal (Some sample_true) 200
            (mkRecorder [] rejects_all)))
  = [CallHeaderSet "Content-Type" "application/json; charset=UTF-8";
     CallWriteHeader 200;
     CallWrite ("true" +:+ newline) 0 (Some (errorString "write: broken pipe"));
     CallHeaderDel "Content-Length";
     CallHeaderSet "Content-Type" "text/plain; charset=utf-8";
     CallHeaderSet "X-Content-Type-Options" "nosniff";
     CallWriteHeader 500;
     CallWrite ("write: broken pipe" +:+ newline) 0
       (Some (errorString "write: broken pipe"))].
Proof.
  rewrite (proj1
    (EncodeJSONResponse_plain_write_failure sample sample_Marshal sample_true "true"
       200 (mkRecorder [] rejects_all) 0 (errorString "write: broken pipe")
       eq_refl eq_refl)).
  reflexivity.
Defined.



Lemma NewErrorHandler_silent_success_witness :
  exists edits : list call,
    forallb is_header_edit edits = true
    /\ NewErrorHandler sample_Marshal
         (fun _ : unit => DoHeaderSet "Cache-Control" "no-store" (Return None))
         (mkRecorder [] accepts_all) tt
       = (mkRecorder ([] ++ edits) accepts_all, []).
Proof.
  apply (NewErrorHandler_silent_success sample sample_Marshal unit
           (fun _ => DoHeaderSet "Cache-Control" "no-store" (Return None))
           (mkRecorder [] accepts_all) tt).
  - reflexivity.
  - reflexivity.
Defined.

Lemma NewErrorHandler_logs_error_iff_response_started_witness :
  snd (NewErrorHandler sample_Marshal
         (fun _ : unit => Return (Some (errorString "boom")))
         (mkRecorder [] accepts_all) tt)
  = [].
Proof.
  apply (NewErrorHandler_logs_error_iff_response_started sample sample_Marshal unit
           (fun _ => Return (Some (errorString "boom")))
           (mkRecorder [] accepts_all) tt
           (newTracking (mkRecorder [] accepts_all)) [] (errorString "boom")).
  reflexivity.
Defined.

Lemma NewErrorHandler_error_always_starts_response_witness :
  exists added : list call,
    received
      (fst (NewErrorHandler sample_Marshal
              (fun _ : unit => Return (Some (statusError "not found" 404)))
              (mkRecorder [] accepts_all) tt))
    = [] ++ added
    /\ has_output added = true.
Proof.
  apply (NewErrorHandler_error_always_starts_response sample sample_Marshal unit
           (fun _ => Return (Some (statusError "not found" 404)))
           (mkRecorder [] accepts_all) tt (statusError "not found" 404)).
  reflexivity.
Defined.


Lemma Unimplemented_sends_501_only_witness :
  Code (response_of
          (received
             (fst (Unimplemented (mkRecorder [CallHeaderSet "Allow" "GET"] accepts_all)))))
  = 501.
Proof.
  refine (proj1 (proj2
    (Unimplemented_sends_501_only
       (mkRecorder [CallHeaderSet "Allow" "GET"] accepts_all) _))).
  reflexivity.
Defined.

